(** * Command builder of givenergy_modbus/client/commands.py

    A shallow embedding of [RegisterMap] and [CommandBuilder]: every
    builder method becomes a Rocq function returning either the list of
    requests it builds or the Python exception it raises. *)

From Stdlib Require Import ZArith List String Ascii Lia.
Import ListNotations.
Open Scope Z_scope.

(** ** Requests (givenergy_modbus/pdu) *)

Inductive TransparentRequest : Type :=
| ReadHoldingRegistersRequest (slave_address base_register register_count : Z)
| ReadInputRegistersRequest (slave_address base_register register_count : Z)
| WriteHoldingRegisterRequest (register value : Z).

(** A Python [bool] passed as a register value is the [int] 1 or 0. *)
Definition int_of_bool (b : bool) : Z := if b then 1 else 0.

(** ** Exceptions and the error monad *)

Inductive PyError : Type :=
(** [ValueError(f"<label> ({val}) ... [lo-hi]...")]: the label of the
    setting, the offending value and the bounds of the valid range. *)
| ValueError (label : string) (value lo hi : Z)
(** [getattr] on a name the class does not declare. *)
| AttributeError (name : string)
(** A call with the wrong number of positional arguments. *)
| TypeError (function : string) (expected given : nat).

Inductive result (A : Type) : Type :=
| Ok (x : A)
| Err (e : PyError).
Arguments Ok {A} x.
Arguments Err {A} e.

Definition bind {A B : Type} (m : result A) (f : A -> result B) : result B :=
  match m with
  | Ok x => f x
  | Err e => Err e
  end.

Notation "x <- m ;; k" := (bind m (fun x => k))
  (at level 61, m at next level, right associativity).

(** [ret.extend(...)] on a list obtained from a call that may raise. *)
Definition extend (m k : result (list TransparentRequest))
  : result (list TransparentRequest) :=
  a <- m ;; b <- k ;; Ok (a ++ b).

(** ** RegisterMap *)

Module RegisterMap.
Definition ENABLE_CHARGE_TARGET := 20.
Definition BATTERY_POWER_MODE := 27.
Definition SOC_FORCE_ADJUST := 29.
Definition CHARGE_SLOT_2_START := 31.
Definition CHARGE_SLOT_2_END := 32.
Definition SYSTEM_TIME_YEAR := 35.
Definition SYSTEM_TIME_MONTH := 36.
Definition SYSTEM_TIME_DAY := 37.
Definition SYSTEM_TIME_HOUR := 38.
Definition SYSTEM_TIME_MINUTE := 39.
Definition SYSTEM_TIME_SECOND := 40.
Definition DISCHARGE_SLOT_2_START := 44.
Definition DISCHARGE_SLOT_2_END := 45.
Definition ACTIVE_POWER_RATE := 50.
Definition DISCHARGE_SLOT_1_START := 56.
Definition DISCHARGE_SLOT_1_END := 57.
Definition ENABLE_DISCHARGE := 59.
Definition CHARGE_SLOT_1_START := 94.
Definition CHARGE_SLOT_1_END := 95.
Definition ENABLE_CHARGE := 96.
Definition BATTERY_SOC_RESERVE := 110.
Definition BATTERY_CHARGE_LIMIT := 111.
Definition BATTERY_DISCHARGE_LIMIT := 112.
Definition BATTERY_DISCHARGE_MIN_POWER_RESERVE := 114.
Definition CHARGE_TARGET_SOC := 116.
Definition REBOOT := 163.
Definition BATTERY_PAUSE_MODE := 318.
Definition BATTERY_PAUSE_SLOT_START := 319.
Definition BATTERY_PAUSE_SLOT_END := 320.

Local Open Scope string_scope.

(** The class attributes, in declaration order, as [getattr] sees them. *)
Definition attributes : list (string * Z) :=
  [("ENABLE_CHARGE_TARGET", ENABLE_CHARGE_TARGET);
   ("BATTERY_POWER_MODE", BATTERY_POWER_MODE);
   ("SOC_FORCE_ADJUST", SOC_FORCE_ADJUST);
   ("CHARGE_SLOT_2_START", CHARGE_SLOT_2_START);
   ("CHARGE_SLOT_2_END", CHARGE_SLOT_2_END);
   ("SYSTEM_TIME_YEAR", SYSTEM_TIME_YEAR);
   ("SYSTEM_TIME_MONTH", SYSTEM_TIME_MONTH);
   ("SYSTEM_TIME_DAY", SYSTEM_TIME_DAY);
   ("SYSTEM_TIME_HOUR", SYSTEM_TIME_HOUR);
   ("SYSTEM_TIME_MINUTE", SYSTEM_TIME_MINUTE);
   ("SYSTEM_TIME_SECOND", SYSTEM_TIME_SECOND);
   ("DISCHARGE_SLOT_2_START", DISCHARGE_SLOT_2_START);
   ("DISCHARGE_SLOT_2_END", DISCHARGE_SLOT_2_END);
   ("ACTIVE_POWER_RATE", ACTIVE_POWER_RATE);
   ("DISCHARGE_SLOT_1_START", DISCHARGE_SLOT_1_START);
   ("DISCHARGE_SLOT_1_END", DISCHARGE_SLOT_1_END);
   ("ENABLE_DISCHARGE", ENABLE_DISCHARGE);
   ("CHARGE_SLOT_1_START", CHARGE_SLOT_1_START);
   ("CHARGE_SLOT_1_END", CHARGE_SLOT_1_END);
   ("ENABLE_CHARGE", ENABLE_CHARGE);
   ("BATTERY_SOC_RESERVE", BATTERY_SOC_RESERVE);
   ("BATTERY_CHARGE_LIMIT", BATTERY_CHARGE_LIMIT);
   ("BATTERY_DISCHARGE_LIMIT", BATTERY_DISCHARGE_LIMIT);
   ("BATTERY_DISCHARGE_MIN_POWER_RESERVE", BATTERY_DISCHARGE_MIN_POWER_RESERVE);
   ("CHARGE_TARGET_SOC", CHARGE_TARGET_SOC);
   ("REBOOT", REBOOT);
   ("BATTERY_PAUSE_MODE", BATTERY_PAUSE_MODE);
   ("BATTERY_PAUSE_SLOT_START", BATTERY_PAUSE_SLOT_START);
   ("BATTERY_PAUSE_SLOT_END", BATTERY_PAUSE_SLOT_END)].

(** The register addresses the map declares. *)
Definition addresses : list Z := map snd attributes.

Fixpoint lookup (name : string) (l : list (string * Z)) : option Z :=
  match l with
  | [] => None
  | (n, v) :: l' => if String.eqb n name then Some v else lookup name l'
  end.

(** [getattr(RegisterMap, name)] on the names of the form
    [[DIS]CHARGE_SLOT_<idx>_START] and [..._END] that
    [_set_charge_slot] builds: of the class attributes only the declared
    ones can carry such a name (those [RegisterMap] inherits from
    [object] and [type], such as [__doc__] or [mro], cannot), so the
    lookup searches the declared attributes. *)
Definition getattr (name : string) : result Z :=
  match lookup name attributes with
  | Some v => Ok v
  | None => Err (AttributeError name)
  end.
End RegisterMap.

(** ** Primitive setters (static methods of [CommandBuilder]) *)

(** [if not lo <= v <= hi: raise ValueError(...)]; otherwise one write. *)
Definition checked_write (label : string) (lo hi reg v : Z)
  : result (list TransparentRequest) :=
  if negb ((lo <=? v) && (v <=? hi)) then Err (ValueError label v lo hi)
  else Ok [WriteHoldingRegisterRequest reg v].

Definition disable_charge_target : list TransparentRequest :=
  [WriteHoldingRegisterRequest RegisterMap.ENABLE_CHARGE_TARGET (int_of_bool false);
   WriteHoldingRegisterRequest RegisterMap.CHARGE_TARGET_SOC 100].

Definition set_charge_target (target_soc : Z) : result (list TransparentRequest) :=
  checked_write "Charge Target SOC" 4 100 RegisterMap.CHARGE_TARGET_SOC target_soc.

Definition set_enable_charge (enabled : bool) : list TransparentRequest :=
  [WriteHoldingRegisterRequest RegisterMap.ENABLE_CHARGE (int_of_bool enabled)].

Definition set_enable_charge_target (enabled : bool) : list TransparentRequest :=
  [WriteHoldingRegisterRequest RegisterMap.ENABLE_CHARGE_TARGET (int_of_bool enabled)].

Definition set_enable_discharge (enabled : bool) : list TransparentRequest :=
  [WriteHoldingRegisterRequest RegisterMap.ENABLE_DISCHARGE (int_of_bool enabled)].

Definition set_inverter_reboot : list TransparentRequest :=
  [WriteHoldingRegisterRequest RegisterMap.REBOOT 100].

Definition set_calibrate_battery_soc : list TransparentRequest :=
  [WriteHoldingRegisterRequest RegisterMap.SOC_FORCE_ADJUST 1].

(** Deprecated aliases, decorated [@staticmethod]. *)
Definition enable_charge : list TransparentRequest := set_enable_charge true.
Definition disable_charge : list TransparentRequest := set_enable_charge false.
Definition enable_discharge : list TransparentRequest := set_enable_discharge true.
Definition disable_discharge : list TransparentRequest := set_enable_discharge false.

Definition set_discharge_mode_max_power : list TransparentRequest :=
  [WriteHoldingRegisterRequest RegisterMap.BATTERY_POWER_MODE 0].

Definition set_discharge_mode_to_match_demand : list TransparentRequest :=
  [WriteHoldingRegisterRequest RegisterMap.BATTERY_POWER_MODE 1].

(** [val = int(val)] is the identity on the [int] values modelled here. *)
Definition set_battery_soc_reserve (val : Z) : result (list TransparentRequest) :=
  checked_write "Minimum SOC / shallow charge" 4 100
    RegisterMap.BATTERY_SOC_RESERVE val.

(** Deprecated alias; its body as called through the class. *)
Definition set_shallow_charge (val : Z) : result (list TransparentRequest) :=
  set_battery_soc_reserve val.

Definition set_battery_charge_limit (val : Z) : result (list TransparentRequest) :=
  checked_write "Specified Charge Limit" 0 50 RegisterMap.BATTERY_CHARGE_LIMIT val.

Definition set_battery_discharge_limit (val : Z) : result (list TransparentRequest) :=
  checked_write "Specified Discharge Limit" 0 50
    RegisterMap.BATTERY_DISCHARGE_LIMIT val.

Definition set_battery_power_reserve (val : Z) : result (list TransparentRequest) :=
  checked_write "Battery power reserve" 4 100
    RegisterMap.BATTERY_DISCHARGE_MIN_POWER_RESERVE val.

(** [BatteryPauseMode] is an [IntEnum]: compared and written as its ordinal. *)
Definition set_battery_pause_mode (val : Z) : result (list TransparentRequest) :=
  checked_write "Battery pause mode" 0 3 RegisterMap.BATTERY_PAUSE_MODE val.

(** ** Clock times and time slots *)

(** A [datetime.time] with its [hour], [minute], [second] and
    [microsecond] fields ([tzinfo] and [fold] play no part in
    [strftime("%H%M")] and are left out). *)
Record time : Type := mk_time {
  hour : nat; minute : nat; time_second : nat; microsecond : nat }.

(** The invariant [datetime.time] enforces on its fields. *)
Definition valid_time (t : time) : Prop :=
  (hour t < 24)%nat /\ (minute t < 60)%nat /\ (time_second t < 60)%nat /\
  Z.of_nat (microsecond t) < 1000000.

(** [TimeSlot(start, end)] of givenergy_modbus/model. *)
Record TimeSlot : Type := mk_TimeSlot { start : time; end_ : time }.

(** [TimeSlot.from_repr(hhmm_start, hhmm_end)]. *)
Definition TimeSlot_from_repr (s e : nat) : TimeSlot :=
  mk_TimeSlot (mk_time (s / 100) (s mod 100) 0 0) (mk_time (e / 100) (e mod 100) 0 0).

Definition digit_char (d : nat) : ascii := ascii_of_nat (48 + d).

(** A field printed by [%H] or [%M]: two decimal digits, zero padded. *)
Definition pad2 (n : nat) : string :=
  String (digit_char (n / 10 mod 10)) (String (digit_char (n mod 10)) EmptyString).

(** [t.strftime("%H%M")]. *)
Definition strftime_HM (t : time) : string := (pad2 (hour t) ++ pad2 (minute t))%string.

(** [int(s)] on a string of decimal digits, read left to right. *)
Fixpoint int_of_digits (s : string) (acc : Z) : Z :=
  match s with
  | EmptyString => acc
  | String c s' => int_of_digits s' (acc * 10 + (Z.of_nat (nat_of_ascii c) - 48))
  end.

Definition int_of_string (s : string) : Z := int_of_digits s 0.

(** [int(t.strftime("%H%M"))]. *)
Definition time_register_value (t : time) : Z := int_of_string (strftime_HM t).

(** [str(n)] for a non-negative [int]. *)
Fixpoint str_digits (fuel n : nat) (acc : string) : string :=
  match fuel with
  | O => acc
  | S f =>
      let acc' := String (digit_char (n mod 10)) acc in
      if (n <? 10)%nat then acc' else str_digits f (n / 10) acc'
  end.

Definition str_nat (n : nat) : string := str_digits (S n) n EmptyString.

(** [str(i)] for an [int]: a minus sign before the digits of a negative one. *)
Definition str_int (i : Z) : string :=
  if i <? 0 then String "-" (str_nat (Z.to_nat (- i))) else str_nat (Z.to_nat i).

(** [CommandBuilder._set_charge_slot(discharge, idx, slot)]: the two
    register names are built as strings and looked up with [getattr]; a
    slot that is present (a [TimeSlot] is always truthy) is written as
    two [HHMM] values, an absent one as two zeros. *)
Definition _set_charge_slot (discharge : bool) (idx : Z) (slot : option TimeSlot)
  : result (list TransparentRequest) :=
  let prefix := (if discharge then "DIS" else "")%string in
  hr_start <- RegisterMap.getattr
                (prefix ++ "CHARGE_SLOT_" ++ str_int idx ++ "_START")%string ;;
  hr_end <- RegisterMap.getattr
              (prefix ++ "CHARGE_SLOT_" ++ str_int idx ++ "_END")%string ;;
  match slot with
  | Some s =>
      Ok [WriteHoldingRegisterRequest hr_start (time_register_value (start s));
          WriteHoldingRegisterRequest hr_end (time_register_value (end_ s))]
  | None =>
      Ok [WriteHoldingRegisterRequest hr_start 0;
          WriteHoldingRegisterRequest hr_end 0]
  end.

Definition set_pause_slot_start (start : option time) : list TransparentRequest :=
  match start with
  | Some t => [WriteHoldingRegisterRequest RegisterMap.BATTERY_PAUSE_SLOT_START
                 (time_register_value t)]
  | None => [WriteHoldingRegisterRequest RegisterMap.BATTERY_PAUSE_SLOT_START 0]
  end.

Definition set_pause_slot_end (end_t : option time) : list TransparentRequest :=
  match end_t with
  | Some t => [WriteHoldingRegisterRequest RegisterMap.BATTERY_PAUSE_SLOT_END
                 (time_register_value t)]
  | None => [WriteHoldingRegisterRequest RegisterMap.BATTERY_PAUSE_SLOT_END 0]
  end.

Definition set_charge_slot_1 (timeslot : TimeSlot) := _set_charge_slot false 1 (Some timeslot).
Definition reset_charge_slot_1 := _set_charge_slot false 1 None.
Definition set_charge_slot_2 (timeslot : TimeSlot) := _set_charge_slot false 2 (Some timeslot).
Definition reset_charge_slot_2 := _set_charge_slot false 2 None.
Definition set_discharge_slot_1 (timeslot : TimeSlot) := _set_charge_slot true 1 (Some timeslot).
Definition reset_discharge_slot_1 := _set_charge_slot true 1 None.
Definition set_discharge_slot_2 (timeslot : TimeSlot) := _set_charge_slot true 2 (Some timeslot).
Definition reset_discharge_slot_2 := _set_charge_slot true 2 None.

(** ** System clock *)

Record datetime : Type := mk_datetime {
  year : Z; month : Z; day : Z; dt_hour : Z; dt_minute : Z; second : Z }.

Definition set_system_date_time (dt : datetime) : list TransparentRequest :=
  [WriteHoldingRegisterRequest RegisterMap.SYSTEM_TIME_YEAR (year dt - 2000);
   WriteHoldingRegisterRequest RegisterMap.SYSTEM_TIME_MONTH (month dt);
   WriteHoldingRegisterRequest RegisterMap.SYSTEM_TIME_DAY (day dt);
   WriteHoldingRegisterRequest RegisterMap.SYSTEM_TIME_HOUR (dt_hour dt);
   WriteHoldingRegisterRequest RegisterMap.SYSTEM_TIME_MINUTE (dt_minute dt);
   WriteHoldingRegisterRequest RegisterMap.SYSTEM_TIME_SECOND (second dt)].

(** ** Composite modes *)

Definition set_mode_dynamic : result (list TransparentRequest) :=
  extend (extend (Ok set_discharge_mode_to_match_demand) (set_battery_soc_reserve 4))
         (Ok (set_enable_discharge false)).

(** The default primary slot, [TimeSlot.from_repr(1600, 700)]. *)
Definition default_discharge_slot_1 : TimeSlot := TimeSlot_from_repr 1600 700.

(** [discharge_slot_2] is truthy exactly when it is not [None]. *)
Definition set_mode_storage (discharge_slot_1 : TimeSlot)
    (discharge_slot_2 : option TimeSlot) (discharge_for_export : bool)
  : result (list TransparentRequest) :=
  let ret := if discharge_for_export then set_discharge_mode_max_power
             else set_discharge_mode_to_match_demand in
  let ret := extend (Ok ret) (set_battery_soc_reserve 100) in
  let ret := extend ret (Ok (set_enable_discharge true)) in
  let ret := extend ret (set_discharge_slot_1 discharge_slot_1) in
  match discharge_slot_2 with
  | Some s2 => extend ret (set_discharge_slot_2 s2)
  | None => extend ret reset_discharge_slot_2
  end.

(** ** Builder configuration and the refresh planner *)

(** The [Model] enumeration of givenergy_modbus/model/inverter; the
    command builder distinguishes only [ALL_IN_ONE] from the others. *)
Inductive Model : Type :=
| HYBRID | AC | HYBRID_3PH | AC_3PH | EMS | GATEWAY | ALL_IN_ONE.

Definition Model_eqb (a b : Model) : bool :=
  match a, b with
  | HYBRID, HYBRID | AC, AC | HYBRID_3PH, HYBRID_3PH | AC_3PH, AC_3PH
  | EMS, EMS | GATEWAY, GATEWAY | ALL_IN_ONE, ALL_IN_ONE => true
  | _, _ => false
  end.

(** [model in [None, Model.ALL_IN_ONE]]. *)
Definition in_none_or_aio (model : option Model) : bool :=
  match model with
  | None => true
  | Some m => Model_eqb m ALL_IN_ONE
  end.

Record CommandBuilder : Type := mk_CommandBuilder {
  model : option Model;
  main_slave_address : Z }.

(** [CommandBuilder.__init__(model)]. *)
Definition CommandBuilder_init (model : option Model) : CommandBuilder :=
  mk_CommandBuilder model (if in_none_or_aio model then 17 (* 0x11 *) else 50 (* 0x32 *)).

Definition refresh_additional_holding_registers (self : CommandBuilder)
    (base_register : Z) : list TransparentRequest :=
  [ReadHoldingRegistersRequest (main_slave_address self) base_register 60].

(** [for i in range(n)] with an [int] bound: no iteration when [n <= 0]. *)
Definition range (n : Z) : list Z := map Z.of_nat (seq 0 (Z.to_nat n)).

(** [CommandBuilder.refresh_plant_data]; [additional_holding_registers]
    is [None] or a list, and only a non-empty list is truthy. *)
Definition refresh_plant_data (self : CommandBuilder) (complete : bool)
    (number_batteries max_batteries : Z)
    (additional_holding_registers : option (list Z)) : list TransparentRequest :=
  let requests :=
    [ReadInputRegistersRequest (main_slave_address self) 0 60] in
  let requests :=
    if complete then
      requests ++
      [ReadHoldingRegistersRequest (main_slave_address self) 0 60;
       ReadHoldingRegistersRequest (main_slave_address self) 60 60;
       ReadInputRegistersRequest (main_slave_address self) 120 60]
    else requests in
  let number_batteries :=
    if (complete && negb (in_none_or_aio (model self)))%bool then max_batteries
    else number_batteries in
  let requests :=
    requests ++
    map (fun i => ReadInputRegistersRequest (50 (* 0x32 *) + i) 60 60)
        (range number_batteries) in
  match additional_holding_registers with
  | Some ((_ :: _) as hrs) =>
      requests ++ flat_map (refresh_additional_holding_registers self) hrs
  | _ => requests
  end.

(** ** Calls through the class and through an instance *)

(** A positional argument: the bound instance or an [int]. *)
Inductive Arg : Type :=
| ArgInstance (cb : CommandBuilder)
| ArgInt (v : Z).

(** Calling a one-parameter function [fname(val)] with [args]; a wrong
    arity is a [TypeError] (an instance in place of [val] also ends in a
    [TypeError], raised by [int(val)]). *)
Definition call_int1 (fname : string) (f : Z -> result (list TransparentRequest))
    (args : list Arg) : result (list TransparentRequest) :=
  match args with
  | [ArgInt v] => f v
  | _ => Err (TypeError fname 1 (List.length args))
  end.

(** [CommandBuilder.fname(args...)]: the function itself. *)
Definition class_call (fname : string) (f : Z -> result (list TransparentRequest))
    (args : list Z) : result (list TransparentRequest) :=
  call_int1 fname f (map ArgInt args).

(** [cb.fname(args...)]: a [@staticmethod] gets the arguments as they are, a
    plain function defined in the class body is bound to the instance. *)
Definition instance_call (is_staticmethod : bool) (fname : string)
    (f : Z -> result (list TransparentRequest)) (cb : CommandBuilder)
    (args : list Z) : result (list TransparentRequest) :=
  call_int1 fname f
    (if is_staticmethod then map ArgInt args else ArgInstance cb :: map ArgInt args).

(** [set_battery_soc_reserve] is decorated [@staticmethod];
    [set_shallow_charge] only with [@deprecated(...)]. *)
Definition set_battery_soc_reserve_is_static : bool := true.
Definition set_shallow_charge_is_static : bool := false.

(** * Properties *)

(** ** Range-checked setters *)

Definition in_range (lo hi v : Z) : bool := ((lo <=? v) && (v <=? hi))%bool.

Lemma checked_write_eq (label : string) (lo hi reg v : Z) :
  checked_write label lo hi reg v =
  if in_range lo hi v then Ok [WriteHoldingRegisterRequest reg v]
  else Err (ValueError label v lo hi).
Proof.
  unfold checked_write, in_range.
  destruct ((lo <=? v) && (v <=? hi))%bool; reflexivity.
Qed.

Lemma in_range_spec (lo hi v : Z) : in_range lo hi v = true <-> lo <= v <= hi.
Proof.
  unfold in_range. rewrite Bool.andb_true_iff, !Z.leb_le. tauto.
Qed.

(** C1: each percentage setter writes its value to its own register when
    the value lies in the inclusive range and otherwise raises a
    [ValueError] carrying the value and the range, with no request. *)
Theorem percentage_setters_range (v : Z) :
  set_charge_target v =
    (if in_range 4 100 v
     then Ok [WriteHoldingRegisterRequest RegisterMap.CHARGE_TARGET_SOC v]
     else Err (ValueError "Charge Target SOC" v 4 100)) /\
  set_battery_soc_reserve v =
    (if in_range 4 100 v
     then Ok [WriteHoldingRegisterRequest RegisterMap.BATTERY_SOC_RESERVE v]
     else Err (ValueError "Minimum SOC / shallow charge" v 4 100)) /\
  set_battery_charge_limit v =
    (if in_range 0 50 v
     then Ok [WriteHoldingRegisterRequest RegisterMap.BATTERY_CHARGE_LIMIT v]
     else Err (ValueError "Specified Charge Limit" v 0 50)) /\
  set_battery_discharge_limit v =
    (if in_range 0 50 v
     then Ok [WriteHoldingRegisterRequest RegisterMap.BATTERY_DISCHARGE_LIMIT v]
     else Err (ValueError "Specified Discharge Limit" v 0 50)) /\
  set_battery_power_reserve v =
    (if in_range 4 100 v
     then Ok [WriteHoldingRegisterRequest
                RegisterMap.BATTERY_DISCHARGE_MIN_POWER_RESERVE v]
     else Err (ValueError "Battery power reserve" v 4 100)).
Proof.
  repeat split; apply checked_write_eq.
Qed.

Example percentage_setters_boundaries :
  set_charge_target 3 = Err (ValueError "Charge Target SOC" 3 4 100) /\
  set_charge_target 4 = Ok [WriteHoldingRegisterRequest 116 4] /\
  set_charge_target 100 = Ok [WriteHoldingRegisterRequest 116 100] /\
  set_charge_target 101 = Err (ValueError "Charge Target SOC" 101 4 100) /\
  set_battery_charge_limit (-1) = Err (ValueError "Specified Charge Limit" (-1) 0 50) /\
  set_battery_charge_limit 51 = Err (ValueError "Specified Charge Limit" 51 0 50) /\
  set_battery_power_reserve 3 = Err (ValueError "Battery power reserve" 3 4 100).
Proof. repeat split; reflexivity. Qed.

(** C8: the battery pause mode accepts exactly the ordinals 0 to 3, each
    written to the pause-mode register, and rejects every other value
    (in particular -1 and 4) with a [ValueError] and no request. *)
Theorem set_battery_pause_mode_ordinals (v : Z) :
  set_battery_pause_mode v =
    (if in_range 0 3 v
     then Ok [WriteHoldingRegisterRequest RegisterMap.BATTERY_PAUSE_MODE v]
     else Err (ValueError "Battery pause mode" v 0 3)) /\
  (in_range 0 3 v = true <-> v = 0 \/ v = 1 \/ v = 2 \/ v = 3) /\
  set_battery_pause_mode (-1) = Err (ValueError "Battery pause mode" (-1) 0 3) /\
  set_battery_pause_mode 4 = Err (ValueError "Battery pause mode" 4 0 3).
Proof.
  split; [apply checked_write_eq |].
  split; [| split; reflexivity].
  rewrite in_range_spec. lia.
Qed.

(** ** Composite modes *)

(** C4: dynamic mode is the fixed sequence discharge mode 1 (match
    demand), SOC reserve 4, discharge disabled; it takes no state, so two
    invocations return the same sequence. *)
Theorem set_mode_dynamic_sequence :
  set_mode_dynamic =
    Ok [WriteHoldingRegisterRequest RegisterMap.BATTERY_POWER_MODE 1;
        WriteHoldingRegisterRequest RegisterMap.BATTERY_SOC_RESERVE 4;
        WriteHoldingRegisterRequest RegisterMap.ENABLE_DISCHARGE (int_of_bool false)] /\
  set_mode_dynamic = set_mode_dynamic.
Proof. split; reflexivity. Qed.

(** C3: storage mode is, in order and with no interleaving: the
    discharge-mode write (0 when exporting, 1 otherwise), SOC reserve 100,
    discharge enabled, the two writes of discharge slot 1, and the two
    writes of discharge slot 2 for a given secondary slot or two zeros
    clearing it when none is given. *)
Theorem set_mode_storage_sequence (s1 : TimeSlot) (s2 : option TimeSlot)
    (discharge_for_export : bool) :
  set_mode_storage s1 s2 discharge_for_export =
    extend
      (Ok [WriteHoldingRegisterRequest RegisterMap.BATTERY_POWER_MODE
             (if discharge_for_export then 0 else 1);
           WriteHoldingRegisterRequest RegisterMap.BATTERY_SOC_RESERVE 100;
           WriteHoldingRegisterRequest RegisterMap.ENABLE_DISCHARGE (int_of_bool true)])
      (extend (set_discharge_slot_1 s1)
         (match s2 with
          | Some s => set_discharge_slot_2 s
          | None => Ok [WriteHoldingRegisterRequest RegisterMap.DISCHARGE_SLOT_2_START 0;
                        WriteHoldingRegisterRequest RegisterMap.DISCHARGE_SLOT_2_END 0]
          end)) /\
  set_mode_storage s1 s2 discharge_for_export =
    Ok ([WriteHoldingRegisterRequest RegisterMap.BATTERY_POWER_MODE
           (if discharge_for_export then 0 else 1);
         WriteHoldingRegisterRequest RegisterMap.BATTERY_SOC_RESERVE 100;
         WriteHoldingRegisterRequest RegisterMap.ENABLE_DISCHARGE (int_of_bool true);
         WriteHoldingRegisterRequest RegisterMap.DISCHARGE_SLOT_1_START
           (time_register_value (start s1));
         WriteHoldingRegisterRequest RegisterMap.DISCHARGE_SLOT_1_END
           (time_register_value (end_ s1))] ++
        match s2 with
        | Some s => [WriteHoldingRegisterRequest RegisterMap.DISCHARGE_SLOT_2_START
                       (time_register_value (start s));
                     WriteHoldingRegisterRequest RegisterMap.DISCHARGE_SLOT_2_END
                       (time_register_value (end_ s))]
        | None => [WriteHoldingRegisterRequest RegisterMap.DISCHARGE_SLOT_2_START 0;
                   WriteHoldingRegisterRequest RegisterMap.DISCHARGE_SLOT_2_END 0]
        end).
Proof.
  destruct s2, discharge_for_export; split; reflexivity.
Qed.

(** ** System clock *)

(** C7: six writes in the order year, month, day, hour, minute, second;
    the year as its offset from 2000, the other fields unchanged. *)
Theorem set_system_date_time_fields (dt : datetime) :
  set_system_date_time dt =
    [WriteHoldingRegisterRequest RegisterMap.SYSTEM_TIME_YEAR (year dt - 2000);
     WriteHoldingRegisterRequest RegisterMap.SYSTEM_TIME_MONTH (month dt);
     WriteHoldingRegisterRequest RegisterMap.SYSTEM_TIME_DAY (day dt);
     WriteHoldingRegisterRequest RegisterMap.SYSTEM_TIME_HOUR (dt_hour dt);
     WriteHoldingRegisterRequest RegisterMap.SYSTEM_TIME_MINUTE (dt_minute dt);
     WriteHoldingRegisterRequest RegisterMap.SYSTEM_TIME_SECOND (second dt)] /\
  set_system_date_time (mk_datetime 2024 3 15 9 30 45) =
    [WriteHoldingRegisterRequest 35 24; WriteHoldingRegisterRequest 36 3;
     WriteHoldingRegisterRequest 37 15; WriteHoldingRegisterRequest 38 9;
     WriteHoldingRegisterRequest 39 30; WriteHoldingRegisterRequest 40 45].
Proof. split; reflexivity. Qed.

(** ** Clock-time encoding *)

Lemma digit_char_value (d : nat) :
  (d < 10)%nat -> Z.of_nat (nat_of_ascii (digit_char d)) - 48 = Z.of_nat d.
Proof.
  intros Hd. unfold digit_char.
  rewrite nat_ascii_embedding by lia. lia.
Qed.

Lemma two_digits (n : nat) :
  (n < 100)%nat -> (10 * (n / 10 mod 10) + n mod 10)%nat = n.
Proof.
  intros Hn.
  rewrite (Nat.mod_small (n / 10) 10) by (apply Nat.Div0.div_lt_upper_bound; lia).
  pose proof (Nat.div_mod_eq n 10). lia.
Qed.

(** [int(t.strftime("%H%M"))] is [hour * 100 + minute]. *)
Lemma time_register_value_eq (t : time) :
  valid_time t ->
  time_register_value t = Z.of_nat (hour t) * 100 + Z.of_nat (minute t).
Proof.
  intros [Hh [Hm _]].
  unfold time_register_value, int_of_string, strftime_HM, pad2.
  cbn [String.append int_of_digits].
  rewrite !digit_char_value by (apply Nat.mod_upper_bound; lia).
  pose proof (two_digits (hour t) ltac:(lia)).
  pose proof (two_digits (minute t) ltac:(lia)).
  lia.
Qed.

(** The start and end registers [_set_charge_slot] writes for a
    (direction, index) pair. *)
Definition slot_registers (discharge : bool) (idx : Z) : option (Z * Z) :=
  if idx =? 1 then
    Some (if discharge
          then (RegisterMap.DISCHARGE_SLOT_1_START, RegisterMap.DISCHARGE_SLOT_1_END)
          else (RegisterMap.CHARGE_SLOT_1_START, RegisterMap.CHARGE_SLOT_1_END))
  else if idx =? 2 then
    Some (if discharge
          then (RegisterMap.DISCHARGE_SLOT_2_START, RegisterMap.DISCHARGE_SLOT_2_END)
          else (RegisterMap.CHARGE_SLOT_2_START, RegisterMap.CHARGE_SLOT_2_END))
  else None.

(** C6: for charge or discharge slot 1 or 2, a slot from h1:m1 to h2:m2
    is written as the two values [h1*100+m1] and [h2*100+m2] to the
    slot's start and end registers, and an absent slot as two zeros to the
    same two registers. *)
Theorem charge_slot_encoding (discharge : bool) (idx : Z) (s : TimeSlot)
    (Hidx : idx = 1 \/ idx = 2)
    (Hstart : valid_time (start s)) (Hend : valid_time (end_ s)) :
  exists hr_start hr_end,
    slot_registers discharge idx = Some (hr_start, hr_end) /\
    _set_charge_slot discharge idx (Some s) =
      Ok [WriteHoldingRegisterRequest hr_start
            (Z.of_nat (hour (start s)) * 100 + Z.of_nat (minute (start s)));
          WriteHoldingRegisterRequest hr_end
            (Z.of_nat (hour (end_ s)) * 100 + Z.of_nat (minute (end_ s)))] /\
    _set_charge_slot discharge idx None =
      Ok [WriteHoldingRegisterRequest hr_start 0;
          WriteHoldingRegisterRequest hr_end 0].
Proof.
  rewrite <- (time_register_value_eq _ Hstart), <- (time_register_value_eq _ Hend).
  destruct Hidx as [-> | ->]; destruct discharge;
    do 2 eexists; (split; [reflexivity | split; reflexivity]).
Qed.

Lemma charge_slot_encoding_witness :
  (1 = 1 \/ 1 = 2) /\ valid_time (start default_discharge_slot_1) /\
  valid_time (end_ default_discharge_slot_1) /\
  exists hr_start hr_end,
    slot_registers true 1 = Some (hr_start, hr_end) /\
    _set_charge_slot true 1 (Some default_discharge_slot_1) =
      Ok [WriteHoldingRegisterRequest hr_start
            (Z.of_nat (hour (start default_discharge_slot_1)) * 100
             + Z.of_nat (minute (start default_discharge_slot_1)));
          WriteHoldingRegisterRequest hr_end
            (Z.of_nat (hour (end_ default_discharge_slot_1)) * 100
             + Z.of_nat (minute (end_ default_discharge_slot_1)))] /\
    _set_charge_slot true 1 None =
      Ok [WriteHoldingRegisterRequest hr_start 0;
          WriteHoldingRegisterRequest hr_end 0].
Proof.
  assert (Hs : valid_time (start default_discharge_slot_1))
    by (unfold valid_time; simpl; lia).
  assert (He : valid_time (end_ default_discharge_slot_1))
    by (unfold valid_time; simpl; lia).
  split; [left; reflexivity | split; [exact Hs | split; [exact He |]]].
  exact (charge_slot_encoding true 1 default_discharge_slot_1 (or_introl eq_refl) Hs He).
Defined.

Example charge_slot_16_to_7 :
  set_discharge_slot_1 default_discharge_slot_1 =
    Ok [WriteHoldingRegisterRequest 56 1600; WriteHoldingRegisterRequest 57 700] /\
  reset_discharge_slot_1 =
    Ok [WriteHoldingRegisterRequest 56 0; WriteHoldingRegisterRequest 57 0].
Proof. split; reflexivity. Qed.

(** ** Refresh planner *)

(** The per-battery reads of a plan: the input reads of block 60 (the
    primary reads use input blocks 0 and 120). *)
Definition is_battery_read (r : TransparentRequest) : bool :=
  match r with
  | ReadInputRegistersRequest _ base _ => Z.eqb base 60
  | _ => false
  end.

Definition battery_reads (rs : list TransparentRequest) : list TransparentRequest :=
  filter is_battery_read rs.

(** The reads of batteries [0 .. n-1], slave address [0x32 + i]. *)
Definition battery_blocks (n : nat) : list TransparentRequest :=
  map (fun i => ReadInputRegistersRequest (50 + Z.of_nat i) 60 60) (seq 0 n).

(** The battery count [refresh_plant_data] iterates over. *)
Definition effective_batteries (self : CommandBuilder) (complete : bool)
    (number_batteries max_batteries : Z) : Z :=
  if (complete && negb (in_none_or_aio (model self)))%bool
  then max_batteries else number_batteries.

Lemma flat_map_single {A B : Type} (f : A -> B) (l : list A) :
  flat_map (fun x => [f x]) l = map f l.
Proof. induction l as [| x l IH]; simpl; [reflexivity | rewrite IH; reflexivity]. Qed.

Lemma refresh_plant_data_eq (self : CommandBuilder) (complete : bool)
    (number_batteries max_batteries : Z) (extra : option (list Z)) :
  refresh_plant_data self complete number_batteries max_batteries extra =
    [ReadInputRegistersRequest (main_slave_address self) 0 60] ++
    (if complete then
       [ReadHoldingRegistersRequest (main_slave_address self) 0 60;
        ReadHoldingRegistersRequest (main_slave_address self) 60 60;
        ReadInputRegistersRequest (main_slave_address self) 120 60]
     else []) ++
    battery_blocks
      (Z.to_nat (effective_batteries self complete number_batteries max_batteries)) ++
    map (fun hr => ReadHoldingRegistersRequest (main_slave_address self) hr 60)
        (match extra with Some l => l | None => [] end).
Proof.
  unfold refresh_plant_data, effective_batteries, battery_blocks, range.
  rewrite map_map.
  destruct complete, extra as [[| x l] |]; simpl;
    rewrite ?app_nil_r; try reflexivity;
    unfold refresh_additional_holding_registers; rewrite flat_map_single;
    rewrite <- ?app_assoc; reflexivity.
Qed.

Lemma battery_reads_blocks (n : nat) : battery_reads (battery_blocks n) = battery_blocks n.
Proof.
  unfold battery_reads, battery_blocks.
  generalize (seq 0 n) as l.
  induction l as [| i l IH]; [reflexivity |].
  cbn [map filter]. unfold is_battery_read at 1. rewrite Z.eqb_refl, IH. reflexivity.
Qed.

Lemma battery_reads_extra (a : Z) (l : list Z) :
  battery_reads (map (fun hr => ReadHoldingRegistersRequest a hr 60) l) = [].
Proof. unfold battery_reads. induction l; simpl; auto. Qed.

Lemma battery_reads_plan (self : CommandBuilder) (complete : bool)
    (number_batteries max_batteries : Z) (extra : option (list Z)) :
  battery_reads (refresh_plant_data self complete number_batteries max_batteries extra) =
  battery_blocks
    (Z.to_nat (effective_batteries self complete number_batteries max_batteries)).
Proof.
  rewrite refresh_plant_data_eq. unfold battery_reads.
  rewrite !filter_app.
  fold (battery_reads (battery_blocks
         (Z.to_nat (effective_batteries self complete number_batteries max_batteries)))).
  fold (battery_reads (map (fun hr => ReadHoldingRegistersRequest
                                        (main_slave_address self) hr 60)
                           (match extra with Some l => l | None => [] end))).
  rewrite battery_reads_blocks, battery_reads_extra, app_nil_r.
  destruct complete; reflexivity.
Qed.

Lemma battery_blocks_length (n : nat) : List.length (battery_blocks n) = n.
Proof. unfold battery_blocks. rewrite length_map, length_seq. reflexivity. Qed.

(** C5 (counterexample): a complete refresh does not force the battery
    count for every model other than the all-in-one one: a builder with
    an unspecified model asked for 1 battery under a ceiling of 5 reads
    one battery, not five. *)
Lemma refresh_plant_data_order_counterexample :
  ~ (forall (m : option Model) (number_batteries max_batteries : Z)
            (extra : option (list Z)),
       m <> Some ALL_IN_ONE ->
       List.length (battery_reads
         (refresh_plant_data (CommandBuilder_init m) true
            number_batteries max_batteries extra)) = Z.to_nat max_batteries).
Proof.
  intros H.
  specialize (H None 1 5 None ltac:(discriminate)).
  vm_compute in H. discriminate H.
Qed.

(** C5 (amended): the plan is the primary input block 0; when
    [complete], holding blocks 0 and 60 and input block 120, all from
    the primary slave address; one input block 60 per battery [i] in
    ascending order from slave [0x32 + i]; one holding read per extra
    base register, in the caller's order.  With [complete = false] and
    two batteries that is three reads; with [complete = true] a builder
    whose model is given and is not the all-in-one one reads
    [max_batteries] batteries, while an unspecified or all-in-one model
    keeps [number_batteries]. *)
Theorem refresh_plant_data_order (self : CommandBuilder) (complete : bool)
    (number_batteries max_batteries : Z) (extra : option (list Z)) :
  refresh_plant_data self complete number_batteries max_batteries extra =
    [ReadInputRegistersRequest (main_slave_address self) 0 60] ++
    (if complete then
       [ReadHoldingRegistersRequest (main_slave_address self) 0 60;
        ReadHoldingRegistersRequest (main_slave_address self) 60 60;
        ReadInputRegistersRequest (main_slave_address self) 120 60]
     else []) ++
    map (fun i => ReadInputRegistersRequest (50 + Z.of_nat i) 60 60)
      (seq 0 (Z.to_nat
         (if (complete && negb (in_none_or_aio (model self)))%bool
          then max_batteries else number_batteries))) ++
    map (fun hr => ReadHoldingRegistersRequest (main_slave_address self) hr 60)
        (match extra with Some l => l | None => [] end) /\
  refresh_plant_data self false 2 max_batteries None =
    [ReadInputRegistersRequest (main_slave_address self) 0 60;
     ReadInputRegistersRequest 50 60 60;
     ReadInputRegistersRequest 51 60 60] /\
  (forall m : option Model,
     List.length (battery_reads
       (refresh_plant_data (CommandBuilder_init m) true
          number_batteries max_batteries extra)) =
     Z.to_nat (match m with
               | Some m' => if Model_eqb m' ALL_IN_ONE then number_batteries
                            else max_batteries
               | None => number_batteries
               end)).
Proof.
  split; [apply refresh_plant_data_eq |].
  split; [reflexivity |].
  intros m. rewrite battery_reads_plan, battery_blocks_length.
  unfold effective_batteries. destruct m as [m' |]; simpl; [| reflexivity].
  destruct (Model_eqb m' ALL_IN_ONE); reflexivity.
Qed.

(** C10: with [complete = true] and a model that is neither unspecified
    nor all-in-one, the battery reads are those of [max_batteries]
    batteries whatever [number_batteries] is, also when it is larger (a
    bound that is not positive, like [range()], gives no read); with
    [complete = false], [number_batteries] is used unchanged for every
    builder. *)
Theorem refresh_battery_count (self : CommandBuilder) (m : Model)
    (Hmodel : model self = Some m) (Hm : m <> ALL_IN_ONE)
    (number_batteries max_batteries : Z) (extra : option (list Z)) :
  List.length (battery_reads
    (refresh_plant_data self true number_batteries max_batteries extra)) =
    Z.to_nat max_batteries /\
  (forall number_batteries' : Z,
     refresh_plant_data self true number_batteries' max_batteries extra =
     refresh_plant_data self true number_batteries max_batteries extra) /\
  (forall (self' : CommandBuilder) (max_batteries' : Z),
     battery_reads (refresh_plant_data self' false number_batteries max_batteries' extra) =
     battery_blocks (Z.to_nat number_batteries)).
Proof.
  assert (Haio : in_none_or_aio (model self) = false).
  { rewrite Hmodel. destruct m; simpl; congruence. }
  split; [| split].
  - rewrite battery_reads_plan, battery_blocks_length.
    unfold effective_batteries. rewrite Haio. reflexivity.
  - intros nb'. rewrite !refresh_plant_data_eq.
    unfold effective_batteries. rewrite Haio. reflexivity.
  - intros self' mb'. rewrite battery_reads_plan. reflexivity.
Qed.

Lemma refresh_battery_count_witness :
  model (CommandBuilder_init (Some HYBRID)) = Some HYBRID /\ HYBRID <> ALL_IN_ONE /\
  List.length (battery_reads
    (refresh_plant_data (CommandBuilder_init (Some HYBRID)) true 7 5 None)) = 5%nat.
Proof.
  assert (Hm : HYBRID <> ALL_IN_ONE) by discriminate.
  split; [reflexivity | split; [exact Hm |]].
  exact (proj1 (refresh_battery_count (CommandBuilder_init (Some HYBRID)) HYBRID
                  eq_refl Hm 7 5 None)).
Defined.

(** ** Register addresses of the emitted requests *)

(** The register a request names: its base register for a read. *)
Definition request_address (r : TransparentRequest) : Z :=
  match r with
  | ReadHoldingRegistersRequest _ base _ => base
  | ReadInputRegistersRequest _ base _ => base
  | WriteHoldingRegisterRequest reg _ => reg
  end.

(** A write names a Register Map address; reads are not constrained. *)
Definition write_in_map (r : TransparentRequest) : Prop :=
  match r with
  | WriteHoldingRegisterRequest reg _ => In reg RegisterMap.addresses
  | _ => True
  end.

(** Every public operation of [CommandBuilder] with its arguments. *)
Inductive Op : Type :=
| OpRefreshAdditionalHoldingRegisters (base_register : Z)
| OpRefreshPlantData (complete : bool) (number_batteries max_batteries : Z)
    (additional_holding_registers : option (list Z))
| OpDisableChargeTarget
| OpSetChargeTarget (target_soc : Z)
| OpSetEnableCharge (enabled : bool)
| OpSetEnableChargeTarget (enabled : bool)
| OpSetEnableDischarge (enabled : bool)
| OpSetInverterReboot
| OpSetCalibrateBatterySoc
| OpEnableCharge | OpDisableCharge | OpEnableDischarge | OpDisableDischarge
| OpSetDischargeModeMaxPower
| OpSetDischargeModeToMatchDemand
| OpSetShallowCharge (val : Z)
| OpSetBatterySocReserve (val : Z)
| OpSetBatteryChargeLimit (val : Z)
| OpSetBatteryDischargeLimit (val : Z)
| OpSetBatteryPowerReserve (val : Z)
| OpSetBatteryPauseMode (val : Z)
| OpSetChargeSlot (discharge : bool) (idx : Z) (slot : option TimeSlot)
| OpSetPauseSlotStart (start_t : option time)
| OpSetPauseSlotEnd (end_t : option time)
| OpSetChargeSlot1 (timeslot : TimeSlot) | OpResetChargeSlot1
| OpSetChargeSlot2 (timeslot : TimeSlot) | OpResetChargeSlot2
| OpSetDischargeSlot1 (timeslot : TimeSlot) | OpResetDischargeSlot1
| OpSetDischargeSlot2 (timeslot : TimeSlot) | OpResetDischargeSlot2
| OpSetSystemDateTime (dt : datetime)
| OpSetModeDynamic
| OpSetModeStorage (discharge_slot_1 : TimeSlot) (discharge_slot_2 : option TimeSlot)
    (discharge_for_export : bool).

(** [self.op(args...)]: every operation called through the builder
    instance [self].  The [@staticmethod]s get their arguments as they are;
    [set_shallow_charge], a plain function of the class body, is bound to
    [self]. *)
Definition run_op (self : CommandBuilder) (op : Op) : result (list TransparentRequest) :=
  match op with
  | OpRefreshAdditionalHoldingRegisters b => Ok (refresh_additional_holding_registers self b)
  | OpRefreshPlantData c nb mb extra => Ok (refresh_plant_data self c nb mb extra)
  | OpDisableChargeTarget => Ok disable_charge_target
  | OpSetChargeTarget v => set_charge_target v
  | OpSetEnableCharge b => Ok (set_enable_charge b)
  | OpSetEnableChargeTarget b => Ok (set_enable_charge_target b)
  | OpSetEnableDischarge b => Ok (set_enable_discharge b)
  | OpSetInverterReboot => Ok set_inverter_reboot
  | OpSetCalibrateBatterySoc => Ok set_calibrate_battery_soc
  | OpEnableCharge => Ok enable_charge
  | OpDisableCharge => Ok disable_charge
  | OpEnableDischarge => Ok enable_discharge
  | OpDisableDischarge => Ok disable_discharge
  | OpSetDischargeModeMaxPower => Ok set_discharge_mode_max_power
  | OpSetDischargeModeToMatchDemand => Ok set_discharge_mode_to_match_demand
  | OpSetShallowCharge v =>
      instance_call set_shallow_charge_is_static "set_shallow_charge"
        set_shallow_charge self [v]
  | OpSetBatterySocReserve v => set_battery_soc_reserve v
  | OpSetBatteryChargeLimit v => set_battery_charge_limit v
  | OpSetBatteryDischargeLimit v => set_battery_discharge_limit v
  | OpSetBatteryPowerReserve v => set_battery_power_reserve v
  | OpSetBatteryPauseMode v => set_battery_pause_mode v
  | OpSetChargeSlot d idx slot => _set_charge_slot d idx slot
  | OpSetPauseSlotStart t => Ok (set_pause_slot_start t)
  | OpSetPauseSlotEnd t => Ok (set_pause_slot_end t)
  | OpSetChargeSlot1 s => set_charge_slot_1 s
  | OpResetChargeSlot1 => reset_charge_slot_1
  | OpSetChargeSlot2 s => set_charge_slot_2 s
  | OpResetChargeSlot2 => reset_charge_slot_2
  | OpSetDischargeSlot1 s => set_discharge_slot_1 s
  | OpResetDischargeSlot1 => reset_discharge_slot_1
  | OpSetDischargeSlot2 s => set_discharge_slot_2 s
  | OpResetDischargeSlot2 => reset_discharge_slot_2
  | OpSetSystemDateTime dt => Ok (set_system_date_time dt)
  | OpSetModeDynamic => set_mode_dynamic
  | OpSetModeStorage s1 s2 e => set_mode_storage s1 s2 e
  end.

(** [P] holds of every request of a successful call. *)
Definition ok_all (P : TransparentRequest -> Prop) (m : result (list TransparentRequest))
  : Prop :=
  match m with
  | Ok l => Forall P l
  | Err _ => True
  end.

Lemma ok_all_extend (P : TransparentRequest -> Prop) (m k : result (list TransparentRequest)) :
  ok_all P m -> ok_all P k -> ok_all P (extend m k).
Proof.
  destruct m as [a |], k as [b |]; simpl; auto.
  intros Ha Hb. apply Forall_app. auto.
Qed.

Lemma lookup_in (name : string) (l : list (string * Z)) (v : Z) :
  RegisterMap.lookup name l = Some v -> In v (map snd l).
Proof.
  induction l as [| [n w] l IH]; simpl; [discriminate |].
  destruct (String.eqb n name); [intros H; inversion H; auto | auto].
Qed.

Lemma getattr_in (name : string) (v : Z) :
  RegisterMap.getattr name = Ok v -> In v RegisterMap.addresses.
Proof.
  unfold RegisterMap.getattr.
  destruct (RegisterMap.lookup name RegisterMap.attributes) eqn:E; [| discriminate].
  intros H. inversion H; subst. exact (lookup_in _ _ _ E).
Qed.

Lemma checked_write_in_map (label : string) (lo hi reg v : Z) :
  In reg RegisterMap.addresses -> ok_all write_in_map (checked_write label lo hi reg v).
Proof.
  intros Hreg. rewrite checked_write_eq.
  destruct (in_range lo hi v); simpl; auto.
Qed.

Lemma set_charge_slot_in_map (d : bool) (idx : Z) (slot : option TimeSlot) :
  ok_all write_in_map (_set_charge_slot d idx slot).
Proof.
  unfold _set_charge_slot, bind.
  destruct (RegisterMap.getattr
    ((if d then "DIS" else "") ++ "CHARGE_SLOT_" ++ str_int idx ++ "_START")%string)
    as [hs |] eqn:Hs; [| exact I].
  destruct (RegisterMap.getattr
    ((if d then "DIS" else "") ++ "CHARGE_SLOT_" ++ str_int idx ++ "_END")%string)
    as [he |] eqn:He; [| exact I].
  apply getattr_in in Hs. apply getattr_in in He.
  destruct slot; simpl; auto.
Qed.

Definition is_read (r : TransparentRequest) : bool :=
  match r with
  | WriteHoldingRegisterRequest _ _ => false
  | _ => true
  end.

Lemma in_addresses_of_check (z : Z) :
  existsb (Z.eqb z) RegisterMap.addresses = true -> In z RegisterMap.addresses.
Proof.
  intros H. apply existsb_exists in H as [x [Hx Hz]].
  apply Z.eqb_eq in Hz. subst. exact Hx.
Qed.

Lemma write_in_map_of_check (z v : Z) :
  existsb (Z.eqb z) RegisterMap.addresses = true ->
  write_in_map (WriteHoldingRegisterRequest z v).
Proof. apply in_addresses_of_check. Qed.

(** The reads of the refresh planner: blocks 0, 60 and 120 and the
    caller's extra base registers. *)
Lemma refresh_plant_data_reads (self : CommandBuilder) (complete : bool)
    (number_batteries max_batteries : Z) (extra : option (list Z)) :
  Forall (fun r => is_read r = true /\
                   In (request_address r)
                      ([0; 60; 120] ++ match extra with Some l => l | None => [] end))
    (refresh_plant_data self complete number_batteries max_batteries extra).
Proof.
  rewrite refresh_plant_data_eq, !Forall_app.
  split; [| split; [| split]].
  - constructor; [| constructor]. simpl. intuition.
  - destruct complete; [| constructor].
    repeat (apply Forall_cons; [simpl; intuition |]). apply Forall_nil.
  - unfold battery_blocks. apply Forall_map, Forall_forall.
    intros i _. simpl. intuition.
  - apply Forall_map, Forall_forall.
    intros hr Hhr. split; [reflexivity |]. simpl. right; right; right. exact Hhr.
Qed.

Ltac solve_write_in_map :=
  match goal with
  | |- write_in_map (WriteHoldingRegisterRequest _ _) =>
      apply write_in_map_of_check; reflexivity
  | |- write_in_map _ => exact I
  end.

Ltac split_extend :=
  repeat match goal with
         | |- ok_all _ (extend _ _) => apply ok_all_extend
         end.

Ltac ok_piece :=
  cbv delta [set_battery_soc_reserve set_discharge_slot_1 set_discharge_slot_2
             reset_discharge_slot_2 set_discharge_mode_to_match_demand
             set_discharge_mode_max_power set_enable_discharge] beta;
  first
  [ apply set_charge_slot_in_map
  | apply checked_write_in_map; apply in_addresses_of_check; reflexivity
  | cbn [ok_all]; repeat (apply Forall_cons; [solve_write_in_map |]); apply Forall_nil ].

(** C2 (counterexample): the refresh planner emits reads whose base
    registers (0 and 60 here) are not Register Map addresses. *)
Lemma register_map_covers_all_requests_counterexample :
  ~ (forall (self : CommandBuilder) (op : Op),
       ok_all (fun r => In (request_address r) RegisterMap.addresses) (run_op self op)).
Proof.
  intros H.
  specialize (H (CommandBuilder_init None) (OpRefreshPlantData false 1 5 None)).
  cbn [run_op ok_all] in H.
  apply Forall_inv in H. simpl in H.
  repeat (destruct H as [H | H]; [discriminate |]). exact H.
Qed.

(** C2 (amended): every write any operation emits names one of the 29
    Register Map addresses; the reads of the refresh planner name the
    blocks 0, 60 and 120 and the caller's extra base registers. *)
Theorem writes_in_register_map (self : CommandBuilder) (op : Op) :
  ok_all write_in_map (run_op self op) /\
  List.length RegisterMap.addresses = 29%nat /\
  (forall (complete : bool) (number_batteries max_batteries : Z)
          (extra : option (list Z)),
     Forall (fun r => is_read r = true /\
                      In (request_address r)
                         ([0; 60; 120] ++ match extra with Some l => l | None => [] end))
       (refresh_plant_data self complete number_batteries max_batteries extra)).
Proof.
  split; [| split; [reflexivity | apply refresh_plant_data_reads]].
  destruct op; cbn [run_op];
    unfold set_charge_target, set_shallow_charge, set_battery_soc_reserve,
      set_battery_charge_limit, set_battery_discharge_limit,
      set_battery_power_reserve, set_battery_pause_mode,
      set_charge_slot_1, reset_charge_slot_1, set_charge_slot_2,
      reset_charge_slot_2, set_discharge_slot_1, reset_discharge_slot_1,
      set_discharge_slot_2, reset_discharge_slot_2;
    try ok_piece.
  - (* refresh_plant_data *)
    cbn [ok_all]. eapply Forall_impl; [| apply (refresh_plant_data_reads _ _ _ _ additional_holding_registers)].
    intros [] [Hr _]; simpl in *; auto; discriminate.
  - (* set_shallow_charge through the instance raises a TypeError *)
    exact I.
  - destruct start_t; ok_piece.
  - destruct end_t; ok_piece.
  - unfold set_mode_storage. destruct discharge_slot_2, discharge_for_export;
      split_extend; ok_piece.
Qed.

(** ** Deprecated aliases *)

(** C9: the four boolean aliases are their targets at fixed arguments,
    and [set_shallow_charge(v)] called through the class is
    [set_battery_soc_reserve(v)]; called through an instance,
    [set_shallow_charge], which lacks [@staticmethod], receives the
    instance as [val] and raises a [TypeError] where
    [set_battery_soc_reserve] writes the value. *)
Theorem deprecated_aliases (self : CommandBuilder) (v : Z) :
  enable_charge = set_enable_charge true /\
  disable_charge = set_enable_charge false /\
  enable_discharge = set_enable_discharge true /\
  disable_discharge = set_enable_discharge false /\
  class_call "set_shallow_charge" set_shallow_charge [v] =
    class_call "set_battery_soc_reserve" set_battery_soc_reserve [v] /\
  instance_call set_battery_soc_reserve_is_static "set_battery_soc_reserve"
    set_battery_soc_reserve self [v] = set_battery_soc_reserve v /\
  instance_call set_shallow_charge_is_static "set_shallow_charge"
    set_shallow_charge self [v] = Err (TypeError "set_shallow_charge" 1 2) /\
  instance_call set_battery_soc_reserve_is_static "set_battery_soc_reserve"
    set_battery_soc_reserve (CommandBuilder_init None) [50] =
    Ok [WriteHoldingRegisterRequest RegisterMap.BATTERY_SOC_RESERVE 50].
Proof. repeat split; reflexivity. Qed.

(** * Further properties of the builder *)

(** ** The Register Map as a lookup table *)

Fixpoint nodupb {A : Type} (eqb : A -> A -> bool) (l : list A) : bool :=
  match l with
  | [] => true
  | x :: l' => negb (existsb (eqb x) l') && nodupb eqb l'
  end.

Lemma NoDup_of_nodupb {A : Type} (eqb : A -> A -> bool)
    (Heqb : forall x y, eqb x y = true <-> x = y) (l : list A) :
  nodupb eqb l = true -> NoDup l.
Proof.
  induction l as [| x l IH]; simpl; intros H; [constructor |].
  apply andb_prop in H as [Hx Hl].
  constructor; [| exact (IH Hl)].
  intros Hin. apply Bool.negb_true_iff in Hx.
  assert (existsb (eqb x) l = true) as Hc
    by (apply existsb_exists; exists x; split; [exact Hin | apply Heqb; reflexivity]).
  congruence.
Qed.

Lemma lookup_sound (name : string) (l : list (string * Z)) (v : Z) :
  RegisterMap.lookup name l = Some v -> In (name, v) l.
Proof.
  induction l as [| [n w] l IH]; simpl; [discriminate |].
  destruct (String.eqb n name) eqn:E; [| auto].
  apply String.eqb_eq in E. intros H. inversion H; subst. auto.
Qed.

(** In a list with distinct second components, each value has one key. *)
Lemma NoDup_snd_key (l : list (string * Z)) (n1 n2 : string) (v : Z) :
  NoDup (map snd l) -> In (n1, v) l -> In (n2, v) l -> n1 = n2.
Proof.
  induction l as [| [n w] l IH]; simpl; [contradiction |].
  intros Hnd H1 H2. inversion Hnd as [| ? ? Hw Hnd']; subst.
  destruct H1 as [E1 | H1], H2 as [E2 | H2].
  - inversion E1; inversion E2; subst. reflexivity.
  - inversion E1; subst. exfalso. apply Hw. apply (in_map snd) in H2. exact H2.
  - inversion E2; subst. exfalso. apply Hw. apply (in_map snd) in H1. exact H1.
  - exact (IH Hnd' H1 H2).
Qed.

(** The 29 names declared in [RegisterMap] are distinct, so are their
    addresses: no address is declared under two names. *)
Theorem register_map_lookup_table :
  List.length RegisterMap.attributes = 29%nat /\
  NoDup (map fst RegisterMap.attributes) /\
  NoDup RegisterMap.addresses /\
  (forall (n1 n2 : string) (v : Z),
     In (n1, v) RegisterMap.attributes -> In (n2, v) RegisterMap.attributes -> n1 = n2).
Proof.
  assert (Haddr : NoDup RegisterMap.addresses)
    by (apply (NoDup_of_nodupb Z.eqb Z.eqb_eq); reflexivity).
  split; [reflexivity |].
  split; [apply (NoDup_of_nodupb String.eqb String.eqb_eq); reflexivity |].
  split; [exact Haddr |].
  intros n1 n2 v H1 H2. exact (NoDup_snd_key _ _ _ _ Haddr H1 H2).
Qed.

(** ** [_set_charge_slot] outside the declared slots *)

Lemma string_app_length (a b : string) :
  String.length (a ++ b) = (String.length a + String.length b)%nat.
Proof. induction a; simpl; congruence. Qed.

Lemma string_app_cancel_r (t s u : string) : (t ++ u = s ++ u)%string -> t = s.
Proof.
  revert s. induction t as [| c t IH]; intros s H; destruct s as [| c' s]; auto.
  - apply (f_equal String.length) in H. rewrite !string_app_length in H. simpl in H. lia.
  - apply (f_equal String.length) in H. rewrite !string_app_length in H. simpl in H. lia.
  - simpl in H. inversion H. f_equal. auto.
Qed.

(** Only the digits 1 and 2 name a [*CHARGE_SLOT_<s>_START] attribute. *)
Lemma start_name_index (d : bool) (s : string) (v : Z) :
  RegisterMap.lookup ((if d then "DIS" else "") ++ "CHARGE_SLOT_" ++ s ++ "_START")%string
    RegisterMap.attributes = Some v -> s = "1"%string \/ s = "2"%string.
Proof.
  intros E. apply lookup_sound, (in_map fst) in E. simpl in E.
  destruct d; simpl in E;
    repeat (destruct E as [E | E]; [try discriminate E |]).
  all: try contradiction.
  all: repeat match type of E with
              | String ?c ?r1 = String ?c ?r2 => injection E as E
              end.
  all: first
    [ apply (f_equal String.length) in E; rewrite string_app_length in E;
      simpl in E; lia
    | apply (string_app_cancel_r (String _ EmptyString) s "_START") in E;
      subst; auto ].
Qed.

Lemma str_digits_S (f n : nat) (acc : string) :
  str_digits (S f) n acc =
  if (n <? 10)%nat then String (digit_char (n mod 10)) acc
  else str_digits f (n / 10) (String (digit_char (n mod 10)) acc).
Proof. reflexivity. Qed.

Lemma str_digits_length (f n : nat) (acc : string) :
  (1 <= f)%nat -> (S (String.length acc) <= String.length (str_digits f n acc))%nat.
Proof.
  revert n acc. induction f as [| f IH]; intros n acc Hf; [lia |].
  rewrite str_digits_S. destruct (n <? 10)%nat; [simpl; lia |].
  destruct f as [| f']; [simpl; lia |].
  specialize (IH (n / 10)%nat (String (digit_char (n mod 10)) acc) ltac:(lia)).
  cbn [String.length] in IH. lia.
Qed.

Lemma digit_char_inj (a b : nat) :
  (a < 10)%nat -> (b < 10)%nat -> digit_char a = digit_char b -> a = b.
Proof.
  intros Ha Hb H. apply (f_equal nat_of_ascii) in H. unfold digit_char in H.
  rewrite !nat_ascii_embedding in H by lia. lia.
Qed.

(** [str(idx)] is a single character only for a one-digit [idx]. *)
Lemma str_nat_single (idx : nat) (c : ascii) :
  str_nat idx = String c EmptyString -> (idx < 10)%nat /\ c = digit_char idx.
Proof.
  unfold str_nat. rewrite str_digits_S. destruct (idx <? 10)%nat eqn:L.
  - apply Nat.ltb_lt in L. intros H.
    apply (f_equal (fun s => match s with String x _ => x | EmptyString => c end)) in H.
    cbv beta iota in H. rewrite Nat.mod_small in H by exact L. auto.
  - apply Nat.ltb_ge in L. intros H.
    pose proof (str_digits_length idx (idx / 10) (String (digit_char (idx mod 10)) EmptyString)
                  ltac:(lia)) as Hl.
    rewrite H in Hl. simpl in Hl. lia.
Qed.

Lemma str_nat_one_two (idx : nat) :
  str_nat idx = "1"%string \/ str_nat idx = "2"%string -> idx = 1%nat \/ idx = 2%nat.
Proof.
  intros [H | H]; apply str_nat_single in H as [Hlt Hc].
  - left. apply digit_char_inj; [lia | lia |]. rewrite <- Hc. reflexivity.
  - right. apply digit_char_inj; [lia | lia |]. rewrite <- Hc. reflexivity.
Qed.

(** [str(i)] is ["1"] or ["2"] only for the [int]s 1 and 2; a negative
    one starts with a minus sign. *)
Lemma str_int_one_two (idx : Z) :
  str_int idx = "1"%string \/ str_int idx = "2"%string -> idx = 1 \/ idx = 2.
Proof.
  unfold str_int. destruct (idx <? 0) eqn:L.
  - intros [H | H]; discriminate H.
  - intros H. apply Z.ltb_ge in L. apply str_nat_one_two in H. lia.
Qed.

(** [_set_charge_slot] succeeds exactly for slot index 1 or 2; for any
    other [int] index, zero and negative ones included, it raises
    [AttributeError] on the missing [*CHARGE_SLOT_<idx>_START]
    attribute and builds no request. *)
Theorem set_charge_slot_index (discharge : bool) (idx : Z) (slot : option TimeSlot) :
  match _set_charge_slot discharge idx slot with
  | Ok _ => idx = 1 \/ idx = 2
  | Err e =>
      e = AttributeError ((if discharge then "DIS" else "") ++ "CHARGE_SLOT_"
                          ++ str_int idx ++ "_START")%string /\
      idx <> 1 /\ idx <> 2
  end.
Proof.
  unfold _set_charge_slot at 1, bind at 1.
  destruct (RegisterMap.getattr
    ((if discharge then "DIS" else "") ++ "CHARGE_SLOT_" ++ str_int idx ++ "_START")%string)
    as [hs | e] eqn:Hs.
  - unfold RegisterMap.getattr in Hs.
    destruct (RegisterMap.lookup _ _) eqn:L; [| discriminate].
    apply start_name_index, str_int_one_two in L.
    destruct L as [-> | ->]; destruct discharge, slot; cbv; auto.
  - split.
    + unfold RegisterMap.getattr in Hs.
      destruct (RegisterMap.lookup _ _); [discriminate | congruence].
    + split; intros ->; destruct discharge; cbv in Hs; discriminate.
Qed.

Example set_charge_slot_negative_index :
  _set_charge_slot false (-1) None = Err (AttributeError "CHARGE_SLOT_-1_START") /\
  _set_charge_slot true 0 None = Err (AttributeError "DISCHARGE_SLOT_0_START") /\
  _set_charge_slot false 12 None = Err (AttributeError "CHARGE_SLOT_12_START").
Proof. repeat split; reflexivity. Qed.

(** ** Pause window and the HHMM encoding *)

(** The pause-window setters write [hour*100+minute] of a given time to
    their single register and 0 when no time is given. *)
Theorem pause_slot_encoding (t : time) (Ht : valid_time t) :
  set_pause_slot_start (Some t) =
    [WriteHoldingRegisterRequest RegisterMap.BATTERY_PAUSE_SLOT_START
       (Z.of_nat (hour t) * 100 + Z.of_nat (minute t))] /\
  set_pause_slot_end (Some t) =
    [WriteHoldingRegisterRequest RegisterMap.BATTERY_PAUSE_SLOT_END
       (Z.of_nat (hour t) * 100 + Z.of_nat (minute t))] /\
  set_pause_slot_start None =
    [WriteHoldingRegisterRequest RegisterMap.BATTERY_PAUSE_SLOT_START 0] /\
  set_pause_slot_end None =
    [WriteHoldingRegisterRequest RegisterMap.BATTERY_PAUSE_SLOT_END 0].
Proof.
  unfold set_pause_slot_start, set_pause_slot_end.
  rewrite (time_register_value_eq t Ht). repeat split; reflexivity.
Qed.

Lemma pause_slot_encoding_witness :
  valid_time (mk_time 23 59 30 0) /\
  set_pause_slot_start (Some (mk_time 23 59 30 0)) =
    [WriteHoldingRegisterRequest RegisterMap.BATTERY_PAUSE_SLOT_START
       (Z.of_nat (hour (mk_time 23 59 30 0)) * 100
        + Z.of_nat (minute (mk_time 23 59 30 0)))].
Proof.
  assert (H : valid_time (mk_time 23 59 30 0)) by (unfold valid_time; simpl; lia).
  split; [exact H |].
  exact (proj1 (pause_slot_encoding (mk_time 23 59 30 0) H)).
Defined.

(** The value written for a valid clock time lies in [0, 2359] and gives
    back the hour as [v / 100] and the minute as [v mod 100]; two valid
    times are written as the same value exactly when they agree on hour
    and minute, whatever their seconds and microseconds. *)
Theorem time_register_value_roundtrip (t1 t2 : time)
    (H1 : valid_time t1) (H2 : valid_time t2) :
  0 <= time_register_value t1 <= 2359 /\
  time_register_value t1 / 100 = Z.of_nat (hour t1) /\
  time_register_value t1 mod 100 = Z.of_nat (minute t1) /\
  (time_register_value t1 = time_register_value t2 <->
   hour t1 = hour t2 /\ minute t1 = minute t2).
Proof.
  assert (Hdec : forall t, valid_time t ->
            time_register_value t / 100 = Z.of_nat (hour t) /\
            time_register_value t mod 100 = Z.of_nat (minute t)).
  { intros t Ht. rewrite (time_register_value_eq t Ht).
    destruct Ht as [Hh [Hm _]].
    split.
    - rewrite Z.div_add_l by lia. rewrite Z.div_small by lia. lia.
    - rewrite Z.add_comm, Z.mod_add by lia. apply Z.mod_small. lia. }
  split; [rewrite (time_register_value_eq t1 H1); destruct H1 as [? [? _]]; lia |].
  split; [exact (proj1 (Hdec t1 H1)) |].
  split; [exact (proj2 (Hdec t1 H1)) |].
  split.
  - intros E. destruct (Hdec t1 H1) as [Ah Am], (Hdec t2 H2) as [Bh Bm].
    rewrite E in Ah, Am. lia.
  - intros [Eh Em]. unfold time_register_value, strftime_HM.
    rewrite Eh, Em. reflexivity.
Qed.

Lemma time_register_value_roundtrip_witness :
  valid_time (mk_time 16 0 0 0) /\ valid_time (mk_time 16 0 30 0) /\
  time_register_value (mk_time 16 0 0 0) = time_register_value (mk_time 16 0 30 0).
Proof.
  assert (Ha : valid_time (mk_time 16 0 0 0)) by (unfold valid_time; simpl; lia).
  assert (Hb : valid_time (mk_time 16 0 30 0)) by (unfold valid_time; simpl; lia).
  split; [exact Ha | split; [exact Hb |]].
  apply (proj2 (proj2 (proj2 (proj2 (time_register_value_roundtrip _ _ Ha Hb))))).
  split; reflexivity.
Defined.

(** ** Slot registers do not overlap *)

(** The registers a successful call writes or reads. *)
Definition result_registers (m : result (list TransparentRequest)) : list Z :=
  match m with
  | Ok l => map request_address l
  | Err _ => []
  end.

(** Each of the four slots (charge or discharge, index 1 or 2) writes two
    different registers, and no register is shared by two slots: setting
    or clearing one slot never touches another. *)
Theorem slot_registers_disjoint (d1 d2 : bool) (i1 i2 : Z)
    (s1 s2 : option TimeSlot)
    (Hi1 : i1 = 1 \/ i1 = 2) (Hi2 : i2 = 1 \/ i2 = 2)
    (Hne : (d1, i1) <> (d2, i2)) :
  NoDup (result_registers (_set_charge_slot d1 i1 s1)) /\
  List.length (result_registers (_set_charge_slot d1 i1 s1)) = 2%nat /\
  (forall r, In r (result_registers (_set_charge_slot d1 i1 s1)) ->
             ~ In r (result_registers (_set_charge_slot d2 i2 s2))).
Proof.
  destruct Hi1 as [-> | ->], Hi2 as [-> | ->], d1, d2;
    try (exfalso; apply Hne; reflexivity);
    destruct s1, s2; cbv -[time_register_value]; repeat split.
  all: cbv delta [RegisterMap.CHARGE_SLOT_1_START RegisterMap.CHARGE_SLOT_1_END
                  RegisterMap.CHARGE_SLOT_2_START RegisterMap.CHARGE_SLOT_2_END
                  RegisterMap.DISCHARGE_SLOT_1_START RegisterMap.DISCHARGE_SLOT_1_END
                  RegisterMap.DISCHARGE_SLOT_2_START RegisterMap.DISCHARGE_SLOT_2_END].
  all: first
    [ reflexivity
    | (repeat (apply NoDup_cons; [cbn; lia |])); apply NoDup_nil
    | intros r Hr Hr'; lia ].
Qed.

Lemma slot_registers_disjoint_witness :
  (1 = 1 \/ 1 = 2) /\ (2 = 1 \/ 2 = 2) /\ (true, 1) <> (true, 2) /\
  List.length (result_registers (_set_charge_slot true 1 None)) = 2%nat.
Proof.
  assert (Hne : (true, 1) <> (true, 2)) by discriminate.
  split; [left; reflexivity | split; [right; reflexivity | split; [exact Hne |]]].
  exact (proj1 (proj2 (slot_registers_disjoint true true 1 2 None None
                         (or_introl eq_refl) (or_intror eq_refl) Hne))).
Defined.

(** ** Composition of the charge-target writes *)

(** [disable_charge_target] is exactly [set_enable_charge_target(False)]
    followed by [set_charge_target(100)], which is in range and so never
    raises. *)
Theorem disable_charge_target_composition :
  Ok disable_charge_target =
    extend (Ok (set_enable_charge_target false)) (set_charge_target 100) /\
  set_charge_target 100 =
    Ok [WriteHoldingRegisterRequest RegisterMap.CHARGE_TARGET_SOC 100].
Proof. split; reflexivity. Qed.

(** ** Slave addresses and sizes of the refresh plan *)

Definition request_slave (r : TransparentRequest) : option Z :=
  match r with
  | ReadHoldingRegistersRequest sa _ _ => Some sa
  | ReadInputRegistersRequest sa _ _ => Some sa
  | WriteHoldingRegisterRequest _ _ => None
  end.

(** For a builder constructed for model [m], every read of the plan other
    than the per-battery ones goes to slave 0x11 when [m] is unspecified
    or all-in-one and to 0x32 otherwise; battery [i] is read from slave
    [0x32 + i]; every request is a 60-register read. *)
Theorem refresh_plan_slaves (m : option Model) (complete : bool)
    (number_batteries max_batteries : Z) (extra : option (list Z)) :
  Forall (fun r =>
            is_read r = true /\
            match r with
            | ReadHoldingRegistersRequest _ _ n | ReadInputRegistersRequest _ _ n => n = 60
            | WriteHoldingRegisterRequest _ _ => False
            end /\
            (is_battery_read r = false ->
             request_slave r = Some (if in_none_or_aio m then 17 else 50)))
    (refresh_plant_data (CommandBuilder_init m) complete
       number_batteries max_batteries extra) /\
  battery_reads (refresh_plant_data (CommandBuilder_init m) complete
                   number_batteries max_batteries extra) =
    map (fun i => ReadInputRegistersRequest (50 + Z.of_nat i) 60 60)
      (seq 0 (Z.to_nat (effective_batteries (CommandBuilder_init m) complete
                          number_batteries max_batteries))).
Proof.
  split; [| apply battery_reads_plan].
  rewrite refresh_plant_data_eq, !Forall_app.
  split; [| split; [| split]].
  - repeat constructor.
  - destruct complete; repeat constructor.
  - unfold battery_blocks. apply Forall_map, Forall_forall.
    intros i _. cbn. split; [reflexivity | split; [reflexivity | intros H; discriminate H]].
  - apply Forall_map, Forall_forall. intros hr _. repeat constructor.
Qed.

(** For an unspecified or all-in-one model the battery count is never
    forced: both a complete and a minimal refresh read [number_batteries]
    batteries and ignore [max_batteries]. *)
Theorem refresh_aio_keeps_count (self : CommandBuilder)
    (Haio : in_none_or_aio (model self) = true) (complete : bool)
    (number_batteries max_batteries : Z) (extra : option (list Z)) :
  battery_reads (refresh_plant_data self complete number_batteries max_batteries extra) =
    battery_blocks (Z.to_nat number_batteries).
Proof.
  rewrite battery_reads_plan. unfold effective_batteries. rewrite Haio.
  destruct complete; reflexivity.
Qed.

Lemma refresh_aio_keeps_count_witness :
  in_none_or_aio (model (CommandBuilder_init (Some ALL_IN_ONE))) = true /\
  battery_reads (refresh_plant_data (CommandBuilder_init (Some ALL_IN_ONE)) true 2 5 None) =
    battery_blocks (Z.to_nat 2).
Proof.
  split; [reflexivity |].
  exact (refresh_aio_keeps_count (CommandBuilder_init (Some ALL_IN_ONE)) eq_refl true 2 5 None).
Defined.

(** The plan has [1 + (3 if complete) + batteries + extras] requests, and
    an empty list of extra registers is the same as none. *)
Theorem refresh_plan_length (self : CommandBuilder) (complete : bool)
    (number_batteries max_batteries : Z) (extra : list Z) :
  List.length (refresh_plant_data self complete number_batteries max_batteries (Some extra)) =
    (1 + (if complete then 3 else 0)
     + Z.to_nat (effective_batteries self complete number_batteries max_batteries)
     + List.length extra)%nat /\
  refresh_plant_data self complete number_batteries max_batteries (Some []) =
    refresh_plant_data self complete number_batteries max_batteries None.
Proof.
  split.
  - rewrite refresh_plant_data_eq, !length_app, battery_blocks_length, length_map.
    destruct complete; simpl; lia.
  - rewrite !refresh_plant_data_eq. reflexivity.
Qed.

(** ** Which operations can raise *)


